(** * Verification of log4j-sniffer: archive format detection, container
    openers and the docker multi-image scanner.

    Shallow embedding of
    - [pkg/archive/formats.go]: [FormatType], the [extensions] table,
      [ParseArchiveFormatFromFile] and the three tar reader providers;
    - [pkg/docker] ([NewDockerScanner], [Scanner.ScanImages],
      [Scanner.scanImage]);
    - the reporter's CVE-2021-45105 suppression, whose source is not part of
      this tree and is modelled from the specification. *)

From Stdlib Require Import String Ascii List Bool Arith Lia.
Import ListNotations.
Open Scope string_scope.
Open Scope list_scope.

(* ------------------------------------------------------------------ *)
(** ** Go's [strings.Split] and [strings.Join] with a one-character separator *)

Module GoStrings.

(** [strings.Split(s, sep)] for a one-byte separator: the maximal pieces of
    [s] between occurrences of [sep]; [Split("", sep)] is [[""]]. *)
Fixpoint Split (s : string) (sep : ascii) : list string :=
  match s with
  | EmptyString => [EmptyString]
  | String c s' =>
      let rest := Split s' sep in
      if Ascii.eqb c sep then EmptyString :: rest
      else match rest with
           | [] => [String c EmptyString]
           | h :: t => String c h :: t
           end
  end.

(** [strings.Join(elems, sep)]. *)
Fixpoint Join (elems : list string) (sep : string) : string :=
  match elems with
  | [] => EmptyString
  | [e] => e
  | e :: rest => e ++ sep ++ Join rest sep
  end.

(** [strings.IndexByte(s, c) >= 0]. *)
Fixpoint ContainsByte (s : string) (c : ascii) : bool :=
  match s with
  | EmptyString => false
  | String c' s' => Ascii.eqb c' c || ContainsByte s' c
  end.

End GoStrings.

(* ------------------------------------------------------------------ *)
(** ** [pkg/archive/formats.go] *)

Module Archive.
Import GoStrings.

(** [type FormatType int] with its [iota] constants. *)
Inductive FormatType :=
| UnsupportedArchive
| TarArchive
| TarGzArchive
| TarBz2Archive
| ZipArchive.

(** The [extensions] map, as an association list (its keys are distinct). *)
Definition extensions : list (string * FormatType) :=
  [ ("ear", ZipArchive);
    ("jar", ZipArchive);
    ("par", ZipArchive);
    ("war", ZipArchive);
    ("zip", ZipArchive);
    ("tar", TarArchive);
    ("tar.gz", TarGzArchive);
    ("tgz", TarGzArchive);
    ("tar.bz2", TarBz2Archive);
    ("tbz2", TarBz2Archive) ].

(** Go map lookup [v, ok := extensions[k]]. *)
Fixpoint lookup (m : list (string * FormatType)) (k : string)
  : option FormatType :=
  match m with
  | [] => None
  | (k', v) :: m' => if String.eqb k k' then Some v else lookup m' k
  end.

(** The loop [for i := len(fileSplit) - 1; i >= len(fileSplit)-2; i--]
    visits the start indices [idxs] in order; the first suffix
    [strings.Join(fileSplit[i:], ".")] found in the table wins. *)
Fixpoint search_suffixes (fileSplit : list string) (idxs : list nat)
  : FormatType * bool :=
  match idxs with
  | [] => (UnsupportedArchive, false)
  | i :: idxs' =>
      match lookup extensions (Join (skipn i fileSplit) ".") with
      | Some archive => (archive, true)
      | None => search_suffixes fileSplit idxs'
      end
  end.

Definition ParseArchiveFormatFromFile (filename : string) : FormatType * bool :=
  let fileSplit := Split filename "." in
  if Nat.ltb (List.length fileSplit) 2 then (UnsupportedArchive, false)
  else
    let n := List.length fileSplit in
    (* only search for a depth of two extension dots *)
    search_suffixes fileSplit [n - 1; n - 2].

(** The detector as the specification words it: split the filename on
    ['.'] and check, from the end, the two-segment suffix (when the split has
    two segments) and then the one-segment suffix against the table. The
    wording has no special case for a filename without a dot: its one
    segment is the whole filename, which is looked up like any suffix. *)
Definition ParseArchiveFormatFromFile_spec (filename : string)
  : FormatType * bool :=
  let fileSplit := Split filename "." in
  let n := List.length fileSplit in
  let two := if Nat.leb 2 n then [n - 2] else [] in
  search_suffixes fileSplit (two ++ [n - 1]).

(** The trailing [k]-segment dot-suffix of a filename. *)
Definition trailing_suffix (filename : string) (k : nat) : string :=
  let fileSplit := Split filename "." in
  Join (skipn (List.length fileSplit - k) fileSplit) ".".

End Archive.


(* ------------------------------------------------------------------ *)
(** ** The tar reader providers of [pkg/archive/formats.go]

    [io.Reader], [*tar.Reader] and the standard library constructors are
    parameters: [gzip.NewReader] returns a reader and an error,
    [bzip2.NewReader] and [tar.NewReader] return a reader only. A Go
    [( *tar.Reader, error)] pair is [option TarReader * option error], [None]
    standing for [nil]. *)

Module Readers.

Definition error := string.

Section Providers.
Variables (Reader TarReader : Type).
Variable gzip_NewReader : Reader -> Reader * option error.
Variable bzip2_NewReader : Reader -> Reader.
Variable tar_NewReader : Reader -> TarReader.

Definition TarGzipReader (iReader : Reader) : option TarReader * option error :=
  let (gzipReader, err) := gzip_NewReader iReader in
  match err with
  | Some e => (None, Some e)
  | None => (Some (tar_NewReader gzipReader), None)
  end.

Definition TarBzip2Reader (iReader : Reader) : option TarReader * option error :=
  (Some (tar_NewReader (bzip2_NewReader iReader)), None).

Definition TarUncompressedReader (iReader : Reader)
  : option TarReader * option error :=
  (Some (tar_NewReader iReader), None).

End Providers.

End Readers.

(* ------------------------------------------------------------------ *)
(** ** The reporter ([crawl.Reporter]) and the crawler ([crawl.Crawler]) *)

Module Reporter.

(** Modelled from the spec: [crawl.Finding], the resolved version and
    [crawl.Reporter.Collect] / [Count] are not part of this tree. A finding is
    a set of independent evidence flags; a version is [major.minor.patch].
    Collect counts a path as vulnerable when some flag is set, unless the
    CVE-2021-45105 switch is on and the resolved version lies in the narrow
    band [>= 2.16.0, < 2.17.0] (a path without a resolved version is counted
    under the base CVE). *)
Record Finding := {
  JarName : bool;
  JarNameInsideArchive : bool;
  ClassName : bool;
  ClassPackageAndName : bool;
  ClassFileMd5 : bool }.

Definition NothingDetected : Finding := Build_Finding false false false false false.

Definition detected (f : Finding) : bool :=
  JarName f || JarNameInsideArchive f || ClassName f
  || ClassPackageAndName f || ClassFileMd5 f.

Record Version := { major : nat; minor : nat; patch : nat }.

Definition version_ltb (a b : Version) : bool :=
  Nat.ltb (major a) (major b)
  || (Nat.eqb (major a) (major b)
      && (Nat.ltb (minor a) (minor b)
          || (Nat.eqb (minor a) (minor b) && Nat.ltb (patch a) (patch b)))).

Definition v2_16_0 : Version := Build_Version 2 16 0.
Definition v2_17_0 : Version := Build_Version 2 17 0.

(** The narrow CVE-2021-45105 band: [2.16.0 <= v < 2.17.0]. *)
Definition in_cve45105_band (v : Version) : bool :=
  negb (version_ltb v v2_16_0) && version_ltb v v2_17_0.

(** The base CVE range: versions below 2.16.0. *)
Definition in_base_range (v : Version) : bool := version_ltb v v2_16_0.

(** One structured record [{path, flags, version}] written to the sink. *)
Record Record_ := { rec_path : string; rec_finding : Finding;
                    rec_version : option Version }.

Record Reporter := {
  DisableCVE45105 : bool;
  count : nat;
  out : list Record_;
  imageID : string;
  imageTags : list string }.

Definition cve45105_only (version : option Version) : bool :=
  match version with
  | Some v => in_cve45105_band v
  | None => false
  end.

Definition Collect (r : Reporter) (path : string) (result : Finding)
    (version : option Version) : Reporter :=
  if negb (detected result) then r
  else if DisableCVE45105 r && cve45105_only version then r
  else {| DisableCVE45105 := DisableCVE45105 r;
          count := S (count r);
          out := out r ++ [Build_Record_ path result version];
          imageID := imageID r;
          imageTags := imageTags r |}.

Definition Count (r : Reporter) : nat := count r.

Definition SetImageID (r : Reporter) (id : string) : Reporter :=
  {| DisableCVE45105 := DisableCVE45105 r; count := count r; out := out r;
     imageID := id; imageTags := imageTags r |}.

Definition SetImageTags (r : Reporter) (tags : list string) : Reporter :=
  {| DisableCVE45105 := DisableCVE45105 r; count := count r; out := out r;
     imageID := imageID r; imageTags := tags |}.

(** The results handed to [Collect], one per scanned path, in crawl order. *)
Definition CollectAll (r : Reporter)
    (results : list (string * Finding * option Version)) : Reporter :=
  fold_left (fun r '(p, f, v) => Collect r p f v) results r.

(** Whether [Collect] counts a result, given the switch. *)
Definition counted (disable : bool) (res : string * Finding * option Version)
  : bool :=
  let '(_, f, v) := res in detected f && negb (disable && cve45105_only v).

End Reporter.

(* ------------------------------------------------------------------ *)
(** ** [pkg/docker]: [Scanner.ScanImages] and [Scanner.scanImage] *)

Module Docker.
Import Reporter.

Definition error := string.

(** Modelled from the spec: [crawl.Stats] and [Stats.Append] are not part of
    this tree; the statistics are running counters and [Append] adds them. *)
Record Stats := { FilesScanned : nat; PathErrors : nat }.

Definition EmptyStats : Stats := Build_Stats 0 0.

Definition Append (s t : Stats) : Stats :=
  Build_Stats (FilesScanned s + FilesScanned t) (PathErrors s + PathErrors t).

Record ImageSummary := { ID : string; RepoTags : list string }.

(** Modelled from the spec: [crawler.Crawl] is not part of this tree. It
    hands one result per scanned path to the reporter's [Collect], in order,
    and returns its statistics and an error; an error (for instance on
    cancellation) can come after some paths were already collected. *)
Record CrawlOutcome := {
  crawl_results : list (string * Finding * option Version);
  crawl_stats : Stats;
  crawl_err : option error }.

(** What the outside world does when one image is scanned: each library or
    system call that can fail returns [Some err] or [None]. [mkdir_temp]
    is the directory [os.MkdirTemp] created, or its error. *)
Record ImageEnv := {
  parse_reference_err : option error;
  daemon_image_err : option error;
  mkdir_temp : string + error;
  create_err : option error;
  export_err : option error;
  unarchive_err : option error;
  remove_err : option error;
  chdir_err : option error;
  close_err : option error;
  remove_all_err : option error;
  crawl : CrawlOutcome }.

(** The process state the scanner touches: the temporary directories on
    disk, the current directory, the error writer, the summaries written to
    the output writer and the reporter. *)
Record World := {
  tmpDirs : list string;
  cwd : string;
  errOut : list string;
  summaries : list (Stats * nat);
  rep : Reporter }.

Definition set_tmpDirs (w : World) (d : list string) : World :=
  Build_World d (cwd w) (errOut w) (summaries w) (rep w).
Definition set_cwd (w : World) (c : string) : World :=
  Build_World (tmpDirs w) c (errOut w) (summaries w) (rep w).
Definition write_err (w : World) (line : string) : World :=
  Build_World (tmpDirs w) (cwd w) (errOut w ++ [line]) (summaries w) (rep w).
Definition set_rep (w : World) (r : Reporter) : World :=
  Build_World (tmpDirs w) (cwd w) (errOut w) (summaries w) r.
Definition write_summary (w : World) (s : Stats * nat) : World :=
  Build_World (tmpDirs w) (cwd w) (errOut w) (summaries w ++ [s]) (rep w).

Definition remove_dir (d : string) (ds : list string) : list string :=
  filter (fun d' => negb (String.eqb d d')) ds.

(** [errors.Wrap(err, msg)]. *)
Definition Wrap (err : error) (msg : string) : error := (msg ++ ": " ++ err)%string.

Definition Crawl (c : CrawlOutcome) (w : World) : World * (Stats * option error) :=
  (set_rep w (CollectAll (rep w) (crawl_results c)), (crawl_stats c, crawl_err c)).

(** The deferred function of [scanImage]: close the tarball, then remove the
    temporary directory, reporting failures on the error writer. *)
Definition deferred (env : ImageEnv) (imageTmpDir : string) (w : World) : World :=
  let w := match close_err env with
           | Some _ => write_err w ("failed to remove temporary image directory "
                                   ++ imageTmpDir)%string
           | None => w
           end in
  match remove_all_err env with
  | Some _ => write_err w ("failed to remove temporary image directory "
                           ++ imageTmpDir)%string
  | None => set_tmpDirs w (remove_dir imageTmpDir (tmpDirs w))
  end.

(** The statements of [scanImage] after the [defer]. *)
Definition scanImage_body (env : ImageEnv) (imageTmpDir : string) (w : World)
  : World * (Stats * option error) :=
  match export_err env with
  | Some err => (w, (EmptyStats, Some (Wrap err "could not export image")))
  | None =>
  match unarchive_err env with
  | Some err => (w, (EmptyStats, Some (Wrap err "failed to extract image")))
  | None =>
  match remove_err env with
  | Some err => (w, (EmptyStats, Some err))
  | None =>
  match chdir_err env with
  | Some err => (w, (EmptyStats, Some err))
  | None => Crawl (crawl env) (set_cwd w imageTmpDir)
  end end end end.

Definition scanImage (env : ImageEnv) (image : ImageSummary) (w : World)
  : World * (Stats * option error) :=
  match parse_reference_err env with
  | Some err => (w, (EmptyStats, Some (Wrap err "failed to get image reference")))
  | None =>
  match daemon_image_err env with
  | Some err => (w, (EmptyStats, Some err))
  | None =>
  match mkdir_temp env with
  | inr err => (w, (EmptyStats, Some (Wrap err
                  "could not create temporary directory for image")))
  | inl imageTmpDir =>
    let w := set_tmpDirs w (tmpDirs w ++ [imageTmpDir]) in
    match create_err env with
    | Some err => (w, (EmptyStats, Some err))
    | None =>
      let '(w, result) := scanImage_body env imageTmpDir w in
      (deferred env imageTmpDir w, result)
    end
  end end end.

(** The loop of [ScanImages] over the image list, threading the world and
    the accumulated statistics. *)
Fixpoint scan_loop (envs : ImageSummary -> ImageEnv) (images : list ImageSummary)
    (w : World) (stats : Stats) : World * Stats :=
  match images with
  | [] => (w, stats)
  | image :: rest =>
    match RepoTags image with
    | [] => scan_loop envs rest w stats
    | _ =>
      let w := set_rep w (SetImageTags (SetImageID (rep w) (ID image))
                                       (RepoTags image)) in
      let '(w, (imageStats, err)) := scanImage (envs image) image w in
      match err with
      | Some e =>
        (* write an error and continue scanning other images if we hit an
           error with this image *)
        scan_loop envs rest (write_err w e) stats
      | None => scan_loop envs rest w (Append stats imageStats)
      end
    end
  end.

Record Config := { OutputSummary : bool }.

(** Modelled from the spec: [scan.WriteSummary] is not part of this tree; it
    writes the combined statistics and the count to the output writer, or
    fails with [summary_err]. *)
Definition WriteSummary (summary_err : option error) (w : World)
    (stats : Stats) (count : nat) : World * option error :=
  match summary_err with
  | Some e => (w, Some e)
  | None => (write_summary w (stats, count), None)
  end.

Definition ScanImages (config : Config)
    (imageList : list ImageSummary + error)
    (envs : ImageSummary -> ImageEnv) (summary_err : option error)
    (w : World) : World * (nat * option error) :=
  match imageList with
  | inr err => (w, (0, Some (Wrap err "could not list docker images")))
  | inl images =>
    let '(w, stats) := scan_loop envs images w EmptyStats in
    let count := Count (rep w) in
    if OutputSummary config then
      match WriteSummary summary_err w stats count with
      | (w, Some err) => (w, (0, Some err))
      | (w, None) => (w, (count, None))
      end
    else (w, (count, None))
  end.

(** The tagged images' [scanImage] outcomes, in order, with the world after
    the loop. *)
Fixpoint scan_trace (envs : ImageSummary -> ImageEnv)
    (images : list ImageSummary) (w : World)
  : World * list (Stats * option error) :=
  match images with
  | [] => (w, [])
  | image :: rest =>
    match RepoTags image with
    | [] => scan_trace envs rest w
    | _ =>
      let w := set_rep w (SetImageTags (SetImageID (rep w) (ID image))
                                       (RepoTags image)) in
      let '(w, (imageStats, err)) := scanImage (envs image) image w in
      let w := match err with Some e => write_err w e | None => w end in
      let '(wf, tr) := scan_trace envs rest w in
      (wf, (imageStats, err) :: tr)
    end
  end.

(** The combined statistics of the images whose scan succeeded. *)
Definition succeeded_stats (acc : Stats) (tr : list (Stats * option error))
  : Stats :=
  fold_left (fun acc '(s, err) =>
               match err with None => Append acc s | Some _ => acc end) tr acc.

Definition errOut_extends (w w' : World) : Prop :=
  exists l, errOut w' = errOut w ++ l.

End Docker.

(* ------------------------------------------------------------------ *)
(** ** [NewDockerScanner] and what a scan of one image reaches *)

Module Scan.

(** The fields of [scan.Config] that [pkg/docker] reads. *)
Record Config := {
  Ignores : list string;
  OutputJSON : bool;
  OutputSummary : bool;
  DisableCVE45105 : bool;
  ArchiveListTimeout : nat }.

End Scan.

Module DockerScanner.
Import Reporter Docker.

(** [docker.Scanner]: the writers and the docker client are parameters;
    the identifier is recorded by the archive-listing timeout it is built
    with. *)
Section Scanner.
Variables (Writer Client : Type).

Record Scanner := {
  config : Scan.Config;
  crawler_ErrorWriter : Writer;
  crawler_IgnoreDirs : list string;
  reporter : Reporter.Reporter;
  reporter_OutputJSON : bool;
  reporter_OutputWriter : Writer;
  identifier_ArchiveListTimeout : nat;
  client : Client }.

(** [NewDockerScanner(config, stdout, stderr)]; [newClient] is the result of
    [client.NewClientWithOpts]. The reporter starts from Go's zero values. *)
Definition NewDockerScanner (newClient : Client + error) (config : Scan.Config)
    (stdout stderr : Writer) : option Scanner * option error :=
  match newClient with
  | inr err => (None, Some (Wrap err "failed to create docker client"))
  | inl dockerClient =>
    (Some {| config := config;
             crawler_ErrorWriter := stderr;
             crawler_IgnoreDirs := Scan.Ignores config;
             reporter := Build_Reporter (Scan.DisableCVE45105 config) 0 [] "" [];
             reporter_OutputJSON := Scan.OutputJSON config;
             reporter_OutputWriter := stdout;
             identifier_ArchiveListTimeout := Scan.ArchiveListTimeout config;
             client := dockerClient |}, None)
  end.

End Scanner.

(** The [ScanImages] configuration read from a scanner's [scan.Config]. *)
Definition scan_config (c : Scan.Config) : Config :=
  Build_Config (Scan.OutputSummary c).

(** Whether every call of [scanImage] before [crawler.Crawl] succeeds. *)
Definition crawl_runs (env : ImageEnv) : bool :=
  match parse_reference_err env, daemon_image_err env, mkdir_temp env,
        create_err env, export_err env, unarchive_err env, remove_err env,
        chdir_err env with
  | None, None, inl _, None, None, None, None, None => true
  | _, _, _, _, _, _, _, _ => false
  end.

(** The results the reporter counts over the tagged images whose crawl
    runs. *)
Fixpoint crawled_count (disable : bool) (envs : ImageSummary -> ImageEnv)
    (images : list ImageSummary) : nat :=
  match images with
  | [] => 0
  | image :: rest =>
    match RepoTags image with
    | [] => crawled_count disable envs rest
    | _ =>
      (if crawl_runs (envs image)
       then List.length (filter (counted disable)
                                (crawl_results (crawl (envs image))))
       else 0) + crawled_count disable envs rest
    end
  end.

End DockerScanner.

(* ------------------------------------------------------------------ *)
(** ** Concrete inputs for the docker scanner *)

Module Scenarios.
Import Reporter Docker.

Definition image1 : ImageSummary := Build_ImageSummary "sha256:1" ["app:1"].
Definition image2 : ImageSummary := Build_ImageSummary "sha256:2" ["app:2"].

Definition tmp1 : string := "/tmp/log4j-sniffer-sha256:1123".

(** Every call succeeds; the crawl yields [results], [stats] and [err]. *)
Definition ok_env (tmp : string) (c : CrawlOutcome) : ImageEnv :=
  {| parse_reference_err := None; daemon_image_err := None;
     mkdir_temp := inl tmp; create_err := None; export_err := None;
     unarchive_err := None; remove_err := None; chdir_err := None;
     close_err := None; remove_all_err := None; crawl := c |}.

Definition jar_finding : Finding := Build_Finding true false false false false.

(** The crawl of image 1 collects one vulnerable jar, then is cancelled. *)
Definition env1 : ImageEnv :=
  ok_env tmp1
    (Build_CrawlOutcome [("lib/log4j-core-2.14.1.jar", jar_finding,
                          Some (Build_Version 2 14 1))]
                        (Build_Stats 1 0) (Some "context canceled")).

(** The crawl of image 2 succeeds and finds nothing. *)
Definition env2 : ImageEnv :=
  ok_env "/tmp/log4j-sniffer-sha256:2456"
    (Build_CrawlOutcome [] (Build_Stats 3 0) None).

Definition envs (image : ImageSummary) : ImageEnv :=
  if String.eqb (ID image) "sha256:1" then env1 else env2.

(** [os.Create] of [image.tar] fails inside the fresh temporary directory. *)
Definition env_create_fails : ImageEnv :=
  {| parse_reference_err := None; daemon_image_err := None;
     mkdir_temp := inl tmp1;
     create_err := Some ("open " ++ tmp1 ++ "/image.tar: no space left on device")%string;
     export_err := None; unarchive_err := None; remove_err := None;
     chdir_err := None; close_err := None; remove_all_err := None;
     crawl := Build_CrawlOutcome [] EmptyStats None |}.

(** Everything succeeds except closing [image.tar] in the deferred
    cleanup. *)
Definition env_close_fails : ImageEnv :=
  {| parse_reference_err := None; daemon_image_err := None;
     mkdir_temp := inl tmp1; create_err := None; export_err := None;
     unarchive_err := None; remove_err := None; chdir_err := None;
     close_err := Some "close image.tar: file already closed";
     remove_all_err := None;
     crawl := Build_CrawlOutcome [] EmptyStats None |}.

(** An image without repo tags. *)
Definition image_untagged : ImageSummary := Build_ImageSummary "sha256:3" [].

Definition reporter0 : Reporter := Build_Reporter false 0 [] "" [].

Definition world0 : World := Build_World [] "/" [] [] reporter0.

Definition config_summary : Config := Build_Config true.

(** A reporter with the CVE-2021-45105 switch on, and three results. *)
Definition reporter_disabled : Reporter := Build_Reporter true 0 [] "" [].

Definition results_mixed : list (string * Finding * option Version) :=
  [ ("lib/log4j-core-2.16.0.jar", Build_Finding true false false false false,
     Some (Build_Version 2 16 0));
    ("lib/log4j-core-2.14.1.jar", Build_Finding true false false false false,
     Some (Build_Version 2 14 1));
    ("fat.jar", Build_Finding false false false true true, None) ].

End Scenarios.

(* ================================================================== *)
(** * Proofs *)

(** ** Properties of [Split] and [Join] *)

Module GoStringsFacts.
Import GoStrings.

Lemma Split_not_nil (s : string) (c : ascii) : Split s c <> [].
Proof.
  destruct s as [|c' s']; simpl; [discriminate|].
  destruct (Ascii.eqb c' c); [discriminate|].
  destruct (Split s' c); discriminate.
Qed.

(** Splitting around one occurrence of the separator. *)
Lemma Split_app_sep (p q : string) (c : ascii) :
  Split (p ++ String c q) c = Split p c ++ Split q c.
Proof.
  induction p as [|c' p IH]; simpl.
  - rewrite Ascii.eqb_refl. reflexivity.
  - rewrite IH. destruct (Ascii.eqb c' c); [reflexivity|].
    destruct (Split p c) as [|h t] eqn:E.
    + exfalso. exact (Split_not_nil p c E).
    + reflexivity.
Qed.

Lemma Split_no_sep (s : string) (c : ascii) :
  ContainsByte s c = false -> Split s c = [s].
Proof.
  induction s as [|c' s IH]; simpl; [reflexivity|].
  intros H. apply orb_false_iff in H as [H1 H2].
  rewrite H1, (IH H2). reflexivity.
Qed.

Lemma list_last_two {A} (l : list A) :
  2 <= List.length l -> exists pre x y, l = pre ++ [x; y].
Proof.
  intros H. destruct (rev l) as [|y [|x r]] eqn:E.
  - apply (f_equal (@rev A)) in E. rewrite rev_involutive in E.
    subst. simpl in H. lia.
  - apply (f_equal (@rev A)) in E. rewrite rev_involutive in E.
    subst. simpl in H. lia.
  - exists (rev r), x, y.
    apply (f_equal (@rev A)) in E. rewrite rev_involutive in E.
    rewrite E. simpl. rewrite <- app_assoc. reflexivity.
Qed.

Lemma skipn_last_two {A} (pre : list A) (x y : A) :
  skipn (List.length pre) (pre ++ [x; y]) = [x; y] /\
  skipn (S (List.length pre)) (pre ++ [x; y]) = [y].
Proof.
  induction pre as [|a pre IH]; simpl; [split; reflexivity|exact IH].
Qed.

Lemma Split_two_when_sep (s : string) (c : ascii) :
  ContainsByte s c = true -> 2 <= List.length (Split s c).
Proof.
  induction s as [|a s IH]; simpl; [discriminate|].
  destruct (Ascii.eqb a c).
  - intros _. simpl. pose proof (Split_not_nil s c).
    destruct (Split s c); [contradiction|simpl; lia].
  - simpl. intros H. specialize (IH H).
    destruct (Split s c); simpl in *; lia.
Qed.

End GoStringsFacts.

(** ** The extension table *)

Module ArchiveFacts.
Import GoStrings GoStringsFacts Archive.

Lemma lookup_extensions_keys (k : string) (a : FormatType) :
  lookup extensions k = Some a ->
  k = "ear" \/ k = "jar" \/ k = "par" \/ k = "war" \/ k = "zip" \/
  k = "tar" \/ k = "tar.gz" \/ k = "tgz" \/ k = "tar.bz2" \/ k = "tbz2".
Proof.
  unfold extensions; simpl.
  repeat match goal with
         | |- context [String.eqb k ?s] =>
             destruct (String.eqb_spec k s) as [->|_]; [intros; tauto|]
         end.
  intros H; discriminate H.
Qed.

(** A two-segment key of the table ends in [gz] or [bz2]. *)
Lemma lookup_two_segments (x y : string) (a : FormatType) :
  lookup extensions (x ++ String "." y) = Some a -> y = "gz" \/ y = "bz2".
Proof.
  intros H. apply lookup_extensions_keys in H.
  repeat destruct H as [H|H];
  destruct x as [|c1 [|c2 [|c3 [|c4 [|c5 [|c6 [|c7 [|c8 x]]]]]]]]; simpl in H;
    inversion H; subst; auto.
Qed.

(** Shape of the split of a filename with at least one dot. *)
Lemma parse_unfold (filename : string) :
  2 <= List.length (Split filename ".") ->
  exists pre x y, Split filename "." = pre ++ [x; y] /\
    ParseArchiveFormatFromFile filename =
      search_suffixes (pre ++ [x; y]) [S (List.length pre); List.length pre] /\
    ParseArchiveFormatFromFile_spec filename =
      search_suffixes (pre ++ [x; y]) [List.length pre; S (List.length pre)].
Proof.
  intros H. destruct (list_last_two _ H) as (pre & x & y & E).
  exists pre, x, y. split; [exact E|].
  unfold ParseArchiveFormatFromFile, ParseArchiveFormatFromFile_spec.
  rewrite E, length_app. cbn zeta.
  replace (Nat.ltb (List.length pre + List.length [x; y]) 2) with false
    by (symmetry; apply Nat.ltb_ge; simpl; lia).
  replace (Nat.leb 2 (List.length pre + List.length [x; y])) with true
    by (symmetry; apply Nat.leb_le; simpl; lia).
  replace (List.length pre + List.length [x; y] - 1)
    with (S (List.length pre)) by (simpl; lia).
  replace (List.length pre + List.length [x; y] - 2)
    with (List.length pre) by (simpl; lia).
  split; reflexivity.
Qed.

End ArchiveFacts.

(** ** Claims on the format detector [ParseArchiveFormatFromFile] *)

Module Detector.
Import GoStrings GoStringsFacts Archive ArchiveFacts.

Lemma Join_last_two (pre : list string) (x y : string) :
  Join (skipn (S (List.length pre)) (pre ++ [x; y])) "." = y /\
  Join (skipn (List.length pre) (pre ++ [x; y])) "." = (x ++ String "." y)%string.
Proof.
  destruct (skipn_last_two pre x y) as [-> ->]. split; reflexivity.
Qed.

(** A filename whose last dot-segment is a key of the table resolves to
    that key's format, whatever comes before the dot. *)
Lemma parse_last_segment (prefix e : string) (a : FormatType) :
  ContainsByte e "." = false ->
  lookup extensions e = Some a ->
  ParseArchiveFormatFromFile (prefix ++ String "." e)%string = (a, true).
Proof.
  intros Hdot Ha.
  assert (Hs : Split (prefix ++ String "." e)%string "." = Split prefix "." ++ [e]).
  { rewrite Split_app_sep, (Split_no_sep e _ Hdot). reflexivity. }
  assert (Hlen : 2 <= List.length (Split (prefix ++ String "." e)%string ".")).
  { rewrite Hs, length_app. simpl.
    destruct (Split prefix ".") eqn:E;
      [exfalso; exact (Split_not_nil _ _ E)|simpl; lia]. }
  destruct (parse_unfold _ Hlen) as (pre & x & y & E & -> & _).
  rewrite Hs in E.
  replace (pre ++ [x; y]) with ((pre ++ [x]) ++ [y]) in E
    by (rewrite <- app_assoc; reflexivity).
  apply app_inj_tail in E as [_ Hy]. subst y.
  cbn [search_suffixes]. destruct (Join_last_two pre x e) as [-> _].
  rewrite Ha. reflexivity.
Qed.

(** C1 (counterexample): the specification's check of the two-segment then
    the one-segment suffix accepts the bare filename [tar], whose one
    segment is the table key [tar], as a tar archive; the detector rejects
    it, because it reports no match for a split of fewer than two
    segments. *)
Lemma ParseArchiveFormatFromFile_spec_bare_key :
  ParseArchiveFormatFromFile_spec "tar" = (TarArchive, true) /\
  ParseArchiveFormatFromFile "tar" = (UnsupportedArchive, false).
Proof. split; reflexivity. Qed.

(** C1 (corrected): for a filename containing a ['.'] the detector agrees
    with the check of the two-segment suffix then the one-segment suffix
    against the extension table (it looks the one-segment suffix up first,
    but no filename matches both: the two-segment keys end in [gz] or
    [bz2], which are not keys); a filename without a ['.'] is never
    matched; and [app.tar.gz] resolves to tar.gz although its final
    segment [gz] alone is not in the table. *)
Theorem ParseArchiveFormatFromFile_compound_suffix (filename : string) :
  (ContainsByte filename "." = true ->
   ParseArchiveFormatFromFile filename =
   ParseArchiveFormatFromFile_spec filename) /\
  (ContainsByte filename "." = false ->
   ParseArchiveFormatFromFile filename = (UnsupportedArchive, false)) /\
  ParseArchiveFormatFromFile "app.tar.gz" = (TarGzArchive, true) /\
  lookup extensions (trailing_suffix "app.tar.gz" 1) = None.
Proof.
  split; [|split; [|split; reflexivity]].
  - intros Hdot. pose proof (Split_two_when_sep _ _ Hdot) as L.
    destruct (parse_unfold _ L) as (pre & x & y & _ & -> & ->).
    cbn [search_suffixes].
    destruct (Join_last_two pre x y) as [-> ->].
    destruct (lookup extensions y) as [a|] eqn:Ey;
      destruct (lookup extensions (x ++ String "." y)%string) as [b|] eqn:Exy;
      try reflexivity.
    apply lookup_two_segments in Exy as [-> | ->]; discriminate Ey.
  - intros Hnodot. unfold ParseArchiveFormatFromFile.
    rewrite (Split_no_sep _ _ Hnodot). reflexivity.
Qed.

(** C5: when neither trailing dot-suffix is in the table, the detector
    answers "not an archive" ([UnsupportedArchive], [false]); its result
    type has no error case. *)
Theorem ParseArchiveFormatFromFile_no_match (filename : string) :
  lookup extensions (trailing_suffix filename 1) = None ->
  lookup extensions (trailing_suffix filename 2) = None ->
  ParseArchiveFormatFromFile filename = (UnsupportedArchive, false).
Proof.
  intros H1 H2.
  destruct (Nat.ltb (List.length (Split filename ".")) 2) eqn:L.
  - unfold ParseArchiveFormatFromFile. rewrite L. reflexivity.
  - apply Nat.ltb_ge in L.
    destruct (parse_unfold _ L) as (pre & x & y & E & -> & _).
    unfold trailing_suffix in H1, H2. rewrite E, length_app in H1, H2.
    simpl List.length in H1, H2.
    replace (List.length pre + 2 - 1) with (S (List.length pre)) in H1 by lia.
    replace (List.length pre + 2 - 2) with (List.length pre) in H2 by lia.
    cbn [search_suffixes]. rewrite H1, H2. reflexivity.
Qed.

(** C6: the five zip-family extensions all map to [ZipArchive]. *)
Theorem zip_family_extensions (prefix : string) :
  Forall (fun ext => ParseArchiveFormatFromFile (prefix ++ String "." ext)%string
                     = (ZipArchive, true))
         ["zip"; "jar"; "war"; "ear"; "par"].
Proof.
  repeat constructor; apply parse_last_segment; reflexivity.
Qed.

(** C8: [tgz] and [tbz2] are recognised as tar.gz and tar.bz2. *)
Theorem tgz_tbz2_extensions (prefix : string) :
  ParseArchiveFormatFromFile (prefix ++ ".tgz")%string = (TarGzArchive, true) /\
  ParseArchiveFormatFromFile (prefix ++ ".tbz2")%string = (TarBz2Archive, true).
Proof.
  split; apply parse_last_segment; reflexivity.
Qed.

(** C9: a filename without any dot is never an archive, even when it is
    itself a key of the table. *)
Theorem ParseArchiveFormatFromFile_no_dot (filename : string) :
  ContainsByte filename "." = false ->
  ParseArchiveFormatFromFile filename = (UnsupportedArchive, false).
Proof.
  intros H. unfold ParseArchiveFormatFromFile.
  rewrite (Split_no_sep _ _ H). reflexivity.
Qed.

End Detector.

(** ** Claims on the tar reader providers *)

Module ReaderClaims.
Import Readers.

(** C10: opening a bzip2 or an uncompressed tar never fails; opening a
    gzip tar fails exactly when [gzip.NewReader] fails, with its error. *)
Theorem tar_reader_provider_errors
    (Reader TarReader : Type)
    (gzip_NewReader : Reader -> Reader * option error)
    (bzip2_NewReader : Reader -> Reader)
    (tar_NewReader : Reader -> TarReader) (iReader : Reader) :
  snd (TarBzip2Reader Reader TarReader bzip2_NewReader tar_NewReader iReader)
    = None /\
  snd (TarUncompressedReader Reader TarReader tar_NewReader iReader) = None /\
  snd (TarGzipReader Reader TarReader gzip_NewReader tar_NewReader iReader)
    = snd (gzip_NewReader iReader) /\
  (snd (TarGzipReader Reader TarReader gzip_NewReader tar_NewReader iReader)
     <> None <-> snd (gzip_NewReader iReader) <> None).
Proof.
  unfold TarBzip2Reader, TarUncompressedReader, TarGzipReader.
  destruct (gzip_NewReader iReader) as [g [e|]]; simpl; repeat split; auto.
Qed.

End ReaderClaims.

(** ** Claims on the CVE-2021-45105 suppression of the reporter *)

Module ReporterClaims.
Import Reporter.

Lemma Collect_DisableCVE45105 r p f v :
  DisableCVE45105 (Collect r p f v) = DisableCVE45105 r.
Proof.
  unfold Collect. destruct (negb (detected f)); [reflexivity|].
  destruct (DisableCVE45105 r && cve45105_only v); reflexivity.
Qed.

Lemma Collect_count r p f v :
  Count (Collect r p f v)
  = Count r + (if counted (DisableCVE45105 r) (p, f, v) then 1 else 0).
Proof.
  unfold Collect, counted, Count.
  destruct (detected f); simpl; [|lia].
  destruct (DisableCVE45105 r && cve45105_only v); simpl; lia.
Qed.

(** The vulnerable count after a crawl counts the paths [counted] keeps. *)
Lemma CollectAll_count r results :
  Count (CollectAll r results)
  = Count r + List.length (filter (counted (DisableCVE45105 r)) results).
Proof.
  unfold CollectAll. revert r.
  induction results as [|[[p f] v] results IH]; intros r;
    cbn [fold_left filter List.length]; [lia|].
  rewrite IH, Collect_DisableCVE45105, Collect_count.
  destruct (counted (DisableCVE45105 r) (p, f, v)); simpl; lia.
Qed.

Lemma base_range_not_band v :
  in_base_range v = true -> in_cve45105_band v = false.
Proof.
  unfold in_cve45105_band, in_base_range. intros ->. reflexivity.
Qed.

(** C4: with the switch on, [vulnerableFileCount] counts exactly the
    detected paths whose resolved version is not in the narrow band; a path
    resolved inside the band is left out, and a detected path whose version
    is unresolved or in the base range is counted. *)
Theorem cve45105_suppression (r : Reporter)
    (results : list (string * Finding * option Version)) :
  DisableCVE45105 r = true ->
  Count (CollectAll r results)
    = Count r + List.length
        (filter (fun '(_, f, v) => detected f && negb (cve45105_only v))
                results) /\
  (forall p f v, in_cve45105_band v = true ->
     Count (Collect r p f (Some v)) = Count r) /\
  (forall p f v, detected f = true ->
     (v = None \/ exists v', v = Some v' /\ in_base_range v' = true) ->
     Count (Collect r p f v) = S (Count r)).
Proof.
  intros Hd. split; [|split].
  - rewrite CollectAll_count, Hd. reflexivity.
  - intros p f v Hv. rewrite Collect_count, Hd. simpl.
    rewrite Hv, andb_false_r. lia.
  - intros p f v Hf Hv. rewrite Collect_count, Hd. simpl. rewrite Hf.
    destruct Hv as [-> | (v' & -> & Hb)]; simpl; [lia|].
    rewrite (base_range_not_band _ Hb). simpl. lia.
Qed.

End ReporterClaims.

(** ** Claims on the docker scanner *)

Module DockerClaims.
Import Reporter Docker.

Lemma errOut_extends_refl w : errOut_extends w w.
Proof. exists []. rewrite app_nil_r. reflexivity. Qed.

Lemma errOut_extends_trans w1 w2 w3 :
  errOut_extends w1 w2 -> errOut_extends w2 w3 -> errOut_extends w1 w3.
Proof.
  intros [l1 H1] [l2 H2]. exists (l1 ++ l2). rewrite H2, H1, app_assoc.
  reflexivity.
Qed.

Lemma errOut_extends_write w line : errOut_extends w (write_err w line).
Proof. exists [line]. reflexivity. Qed.

Lemma deferred_extends env d w : errOut_extends w (deferred env d w).
Proof.
  unfold deferred.
  destruct (close_err env), (remove_all_err env);
    try (exists []; rewrite app_nil_r; reflexivity);
    eauto using errOut_extends_trans, errOut_extends_write,
      errOut_extends_refl.
  exists ["failed to remove temporary image directory " ++ d]%string.
  reflexivity.
Qed.

Lemma scanImage_body_extends env d w :
  errOut_extends w (fst (scanImage_body env d w)).
Proof.
  unfold scanImage_body.
  destruct (export_err env), (unarchive_err env), (remove_err env),
    (chdir_err env); try apply errOut_extends_refl.
  exists []. simpl. rewrite app_nil_r. reflexivity.
Qed.

Lemma scanImage_extends env image w :
  errOut_extends w (fst (scanImage env image w)).
Proof.
  unfold scanImage.
  destruct (parse_reference_err env); [apply errOut_extends_refl|].
  destruct (daemon_image_err env); [apply errOut_extends_refl|].
  destruct (mkdir_temp env) as [d|]; [|apply errOut_extends_refl].
  destruct (create_err env).
  { exists []. simpl. rewrite app_nil_r. reflexivity. }
  pose proof (scanImage_body_extends env d
                (set_tmpDirs w (tmpDirs w ++ [d]))) as H.
  destruct (scanImage_body env d _) as [w1 r]. simpl in *.
  eapply errOut_extends_trans; [exact H|apply deferred_extends].
Qed.

Lemma scan_trace_extends envs images w :
  errOut_extends w (fst (scan_trace envs images w)).
Proof.
  revert w. induction images as [|image rest IH]; intros w; simpl;
    [apply errOut_extends_refl|].
  destruct (RepoTags image) as [|t ts]; [apply IH|].
  set (w1 := set_rep w _).
  pose proof (scanImage_extends (envs image) image w1) as H1.
  destruct (scanImage (envs image) image w1) as [w2 [s err]]. simpl in H1.
  set (w3 := match err with Some e => write_err w2 e | None => w2 end).
  pose proof (IH w3) as H3.
  destruct (scan_trace envs rest w3) as [wf tr]. simpl in *.
  eapply errOut_extends_trans; [|exact H3].
  eapply errOut_extends_trans; [exact H1|].
  destruct err; [apply errOut_extends_write|apply errOut_extends_refl].
Qed.

Lemma scan_loop_trace envs images w stats :
  scan_loop envs images w stats =
  (fst (scan_trace envs images w),
   succeeded_stats stats (snd (scan_trace envs images w))).
Proof.
  revert w stats. induction images as [|image rest IH]; intros w stats;
    simpl; [reflexivity|].
  destruct (RepoTags image) as [|t ts]; [apply IH|].
  destruct (scanImage (envs image) image _) as [w2 [s err]].
  destruct err as [e|]; rewrite IH;
    destruct (scan_trace envs rest _) as [wf tr]; reflexivity.
Qed.

Lemma scan_trace_errors envs images w :
  forall s e, In (s, Some e) (snd (scan_trace envs images w)) ->
  In e (errOut (fst (scan_trace envs images w))).
Proof.
  revert w. induction images as [|image rest IH]; intros w s e Hin;
    simpl in *; [contradiction|].
  destruct (RepoTags image) as [|t ts]; [eapply IH; exact Hin|].
  destruct (scanImage (envs image) image _) as [w2 [s2 err]].
  set (w3 := match err with Some e => write_err w2 e | None => w2 end) in *.
  pose proof (scan_trace_extends envs rest w3) as Hext.
  destruct (scan_trace envs rest w3) as [wf tr] eqn:E. simpl in *.
  destruct Hin as [Heq | Hin].
  - inversion Heq; subst. destruct Hext as [l ->].
    apply in_or_app. left. subst w3. simpl. apply in_or_app. right.
    left. reflexivity.
  - specialize (IH w3 s e). rewrite E in IH. exact (IH Hin).
Qed.

(** After [os.Create] succeeds the deferred cleanup is registered: when
    [os.RemoveAll] succeeds, the temporary directory is gone on every later
    exit path, failing or not. *)
Lemma scanImage_cleanup_after_create env image w d :
  parse_reference_err env = None -> daemon_image_err env = None ->
  mkdir_temp env = inl d -> create_err env = None ->
  remove_all_err env = None ->
  ~ In d (tmpDirs (fst (scanImage env image w))).
Proof.
  intros H1 H2 H3 H4 H5. unfold scanImage. rewrite H1, H2, H3, H4.
  destruct (scanImage_body env d _) as [w1 r]. simpl.
  unfold deferred. rewrite H5.
  destruct (close_err env); simpl; unfold remove_dir;
    rewrite filter_In, String.eqb_refl; simpl; intros [_ Hf]; discriminate.
Qed.

(** C2 (as amended): over a listed set of images, [ScanImages] never returns
    an image's error: its error is the summary's error, if any. A failing
    image's error is written to the error writer and its statistics are left
    out of the combined summary, which is written only when [OutputSummary]
    is set and holds the statistics of the images whose scan succeeded; the
    returned count is the reporter's cumulative [Count]. *)
Theorem ScanImages_image_failures (config : Config)
    (images : list ImageSummary) (envs : ImageSummary -> ImageEnv)
    (summary_err : option error) (w0 : World) :
  let '(wf, tr) := scan_trace envs images w0 in
  ScanImages config (inl images) envs summary_err w0 =
    (if OutputSummary config then
       match summary_err with
       | Some e => (wf, (0, Some e))
       | None => (write_summary wf (succeeded_stats EmptyStats tr,
                                    Count (rep wf)),
                  (Count (rep wf), None))
       end
     else (wf, (Count (rep wf), None))) /\
  (forall s e, In (s, Some e) tr -> In e (errOut wf)).
Proof.
  pose proof (scan_trace_errors envs images w0) as Herr.
  unfold ScanImages. rewrite scan_loop_trace.
  destruct (scan_trace envs images w0) as [wf tr]. simpl in *.
  split; [|exact Herr].
  destruct (OutputSummary config); [|reflexivity].
  destruct summary_err; reflexivity.
Qed.

(** C2 counterexample: image 1's crawl collects one vulnerable jar and is
    then cancelled, so its scan fails; image 2 succeeds with no findings.
    The count returned is 1, not the 0 collected by the images whose scan
    succeeded. *)
Lemma ScanImages_count_includes_failed_image :
  snd (scan_trace Scenarios.envs [Scenarios.image1; Scenarios.image2]
                  Scenarios.world0)
    = [(Build_Stats 1 0, Some "context canceled"); (Build_Stats 3 0, None)] /\
  crawl_results (crawl Scenarios.env2) = [] /\
  Count (rep Scenarios.world0) = 0 /\
  fst (snd (ScanImages Scenarios.config_summary
              (inl [Scenarios.image1; Scenarios.image2])
              Scenarios.envs None Scenarios.world0)) = 1.
Proof. vm_compute. repeat split. Qed.

(** C3: when [os.Create] fails, [scanImage] returns its error with the
    temporary directory it just created still on disk: the deferred
    cleanup is only registered after [os.Create] succeeded. *)
Theorem scanImage_create_failure_keeps_tmpdir :
  let '(w, (_, err)) :=
    scanImage Scenarios.env_create_fails Scenarios.image1 Scenarios.world0 in
  In Scenarios.tmp1 (tmpDirs w) /\ err <> None.
Proof. vm_compute. split; [left; reflexivity|discriminate]. Qed.

End DockerClaims.

(** ** Instances of the claims with hypotheses *)

Module Witnesses.
Import GoStrings Archive Detector Reporter ReporterClaims.

Lemma ParseArchiveFormatFromFile_no_match_witness :
  lookup extensions (trailing_suffix "readme.txt" 1) = None /\
  lookup extensions (trailing_suffix "readme.txt" 2) = None /\
  ParseArchiveFormatFromFile "readme.txt" = (UnsupportedArchive, false).
Proof.
  split; [reflexivity|split; [reflexivity|]].
  apply ParseArchiveFormatFromFile_no_match; reflexivity.
Defined.

Lemma ParseArchiveFormatFromFile_compound_suffix_witness :
  ContainsByte "app.tar.gz" "." = true /\
  ParseArchiveFormatFromFile "app.tar.gz" =
  ParseArchiveFormatFromFile_spec "app.tar.gz".
Proof.
  split; [reflexivity|].
  exact (proj1 (ParseArchiveFormatFromFile_compound_suffix "app.tar.gz")
           eq_refl).
Defined.

Lemma ParseArchiveFormatFromFile_no_dot_witness :
  ContainsByte "tar" "." = false /\
  lookup extensions "tar" = Some TarArchive /\
  ParseArchiveFormatFromFile "tar" = (UnsupportedArchive, false).
Proof.
  split; [reflexivity|split; [reflexivity|]].
  apply ParseArchiveFormatFromFile_no_dot; reflexivity.
Defined.

Lemma cve45105_suppression_witness :
  DisableCVE45105 Scenarios.reporter_disabled = true /\
  Count (CollectAll Scenarios.reporter_disabled Scenarios.results_mixed) = 2.
Proof.
  split; [reflexivity|].
  destruct (cve45105_suppression Scenarios.reporter_disabled Scenarios.results_mixed
                                eq_refl)
    as [H _].
  rewrite H. reflexivity.
Defined.

End Witnesses.

Module DetectorExamples.
Import Archive.
Example parse_app_tar_gz : ParseArchiveFormatFromFile "app.tar.gz" = (TarGzArchive, true).
Proof. reflexivity. Qed.
Example parse_nested_jar : ParseArchiveFormatFromFile "a.b.jar" = (ZipArchive, true).
Proof. reflexivity. Qed.
Example parse_bare_tar_gz : ParseArchiveFormatFromFile "tar.gz" = (TarGzArchive, true).
Proof. reflexivity. Qed.
Example parse_three_suffixes :
  ParseArchiveFormatFromFile "x.tar.gz.txt" = (UnsupportedArchive, false).
Proof. reflexivity. Qed.
Example parse_trailing_dot : ParseArchiveFormatFromFile "x.jar." = (UnsupportedArchive, false).
Proof. reflexivity. Qed.
End DetectorExamples.

(* ================================================================== *)
(** * Further properties of the code *)

(** ** The format detector *)

Module DetectorExtras.
Import GoStrings GoStringsFacts Archive ArchiveFacts Detector.

Lemma Join_cons_char (a : ascii) (h : string) (t : list string) (sep : string) :
  Join (String a h :: t) sep = String a (Join (h :: t) sep).
Proof. destruct t; reflexivity. Qed.

(** [strings.Join(strings.Split(s, sep), sep) == s]. *)
Theorem Join_Split (s : string) (c : ascii) :
  Join (Split s c) (String c EmptyString) = s.
Proof.
  induction s as [|a s IH]; [reflexivity|]. cbn [Split].
  destruct (Ascii.eqb_spec a c) as [->|Hne];
    destruct (Split s c) as [|h t] eqn:E;
    try (exfalso; exact (Split_not_nil s c E)).
  - change (Join (EmptyString :: h :: t) (String c EmptyString))
      with (String c (Join (h :: t) (String c EmptyString))).
    rewrite IH. reflexivity.
  - rewrite Join_cons_char, IH. reflexivity.
Qed.

Lemma string_app_assoc (a b c : string) :
  (a ++ (b ++ c) = (a ++ b) ++ c)%string.
Proof. induction a as [|x a IH]; simpl; [reflexivity|rewrite IH; reflexivity]. Qed.

Lemma Join_app_last (l : list string) (y sep : string) :
  l <> [] -> Join (l ++ [y]) sep = (Join l sep ++ sep ++ y)%string.
Proof.
  induction l as [|a l IH]; intros Hl; [contradiction|].
  destruct l as [|b l]; [reflexivity|].
  change ((a :: b :: l) ++ [y]) with (a :: b :: (l ++ [y])).
  change (Join (a :: b :: (l ++ [y])) sep)
    with (a ++ sep ++ Join (b :: (l ++ [y])) sep)%string.
  change (b :: l ++ [y]) with ((b :: l) ++ [y]).
  rewrite IH by discriminate.
  change (Join (a :: b :: l) sep) with (a ++ sep ++ Join (b :: l) sep)%string.
  rewrite <- !string_app_assoc. reflexivity.
Qed.

(** The detector only looks at the last two dot-segments. *)
Lemma parse_last_two (filename : string) pre x y :
  Split filename "." = pre ++ [x; y] ->
  ParseArchiveFormatFromFile filename =
  match lookup extensions y with
  | Some a => (a, true)
  | None => match lookup extensions (x ++ String "." y)%string with
            | Some a => (a, true)
            | None => (UnsupportedArchive, false)
            end
  end.
Proof.
  intros E.
  assert (L : 2 <= List.length (Split filename ".")).
  { rewrite E, length_app. simpl. lia. }
  destruct (parse_unfold _ L) as (pre' & x' & y' & E' & -> & _).
  rewrite E in E'.
  replace (pre ++ [x; y]) with ((pre ++ [x]) ++ [y]) in E'
    by (rewrite <- app_assoc; reflexivity).
  replace (pre' ++ [x'; y']) with ((pre' ++ [x']) ++ [y']) in E'
    by (rewrite <- app_assoc; reflexivity).
  apply app_inj_tail in E' as [E' Hy]. apply app_inj_tail in E' as [Hp Hx].
  subst. cbn [search_suffixes].
  destruct (Join_last_two pre' x' y') as [-> ->]. reflexivity.
Qed.

Lemma lookup_not_unsupported k a :
  lookup extensions k = Some a -> a <> UnsupportedArchive.
Proof.
  unfold extensions. simpl.
  repeat match goal with
         | |- context [String.eqb k ?s] => destruct (String.eqb k s)
         end; intros H; inversion H; discriminate.
Qed.

(** The flag and the format agree: the detector reports a match exactly
    when the format it returns is not [UnsupportedArchive]. *)
Theorem ParseArchiveFormatFromFile_matched_iff (filename : string) :
  snd (ParseArchiveFormatFromFile filename) = true <->
  fst (ParseArchiveFormatFromFile filename) <> UnsupportedArchive.
Proof.
  destruct (Nat.ltb (List.length (Split filename ".")) 2) eqn:L.
  - unfold ParseArchiveFormatFromFile. rewrite L. simpl.
    split; [discriminate|intros H; contradiction H; reflexivity].
  - apply Nat.ltb_ge in L.
    destruct (list_last_two _ L) as (pre & x & y & E).
    rewrite (parse_last_two _ _ _ _ E).
    destruct (lookup extensions y) as [a|] eqn:Ha;
      [|destruct (lookup extensions (x ++ String "." y)%string) as [a|] eqn:Hb];
      simpl; try (split; [discriminate|intros H; contradiction H; reflexivity]);
      split; try reflexivity; intros _;
      eapply lookup_not_unsupported; eassumption.
Qed.

(** Prepending [p.] to a filename that already has a dot does not change
    its format: leading directories or name parts never matter. *)
Theorem ParseArchiveFormatFromFile_prefix (p n : string) :
  ContainsByte n "." = true ->
  ParseArchiveFormatFromFile (p ++ String "." n)%string =
  ParseArchiveFormatFromFile n.
Proof.
  intros H.
  destruct (list_last_two _ (Split_two_when_sep _ _ H)) as (pre & x & y & E).
  rewrite (parse_last_two n _ _ _ E).
  apply (parse_last_two _ (Split p "." ++ pre)).
  rewrite Split_app_sep, E, app_assoc. reflexivity.
Qed.

(** A match is always a table key at the end of the filename: the filename
    is [p.k] for a key [k], or is the key itself. *)
Theorem ParseArchiveFormatFromFile_sound (filename : string) (f : FormatType) :
  ParseArchiveFormatFromFile filename = (f, true) ->
  exists k, lookup extensions k = Some f /\
    (filename = k \/ exists p, filename = (p ++ String "." k)%string).
Proof.
  intros H.
  destruct (Nat.ltb (List.length (Split filename ".")) 2) eqn:L.
  { unfold ParseArchiveFormatFromFile in H. rewrite L in H. discriminate H. }
  apply Nat.ltb_ge in L.
  destruct (list_last_two _ L) as (pre & x & y & E).
  pose proof (Join_Split filename ".") as R. rewrite E in R.
  rewrite (parse_last_two _ _ _ _ E) in H.
  destruct (lookup extensions y) as [a|] eqn:Ha.
  - inversion H; subst a. exists y. split; [exact Ha|right].
    exists (Join (pre ++ [x]) ".").
    rewrite <- R. replace (pre ++ [x; y]) with ((pre ++ [x]) ++ [y])
      by (rewrite <- app_assoc; reflexivity).
    apply Join_app_last. destruct pre; discriminate.
  - destruct (lookup extensions (x ++ String "." y)%string) as [a|] eqn:Hxy;
      [|discriminate H].
    inversion H; subst a. exists (x ++ String "." y)%string.
    split; [exact Hxy|].
    destruct pre as [|q pre'].
    + left. rewrite <- R. reflexivity.
    + right. exists (Join (q :: pre') "."). rewrite <- R.
      replace ((q :: pre') ++ [x; y]) with (((q :: pre') ++ [x]) ++ [y])
        by (rewrite <- app_assoc; reflexivity).
      rewrite Join_app_last by (destruct pre'; discriminate).
      rewrite Join_app_last by discriminate.
      rewrite <- !string_app_assoc. reflexivity.
Qed.

End DetectorExtras.

(** ** The tar reader providers *)

Module ReaderExtras.
Import Readers.

(** Each provider follows Go's convention: exactly one of the returned
    [*tar.Reader] and [error] is [nil]. *)
Theorem tar_reader_providers_one_nil
    (Reader TarReader : Type)
    (gzip_NewReader : Reader -> Reader * option error)
    (bzip2_NewReader : Reader -> Reader)
    (tar_NewReader : Reader -> TarReader) (iReader : Reader) :
  (let r := TarGzipReader Reader TarReader gzip_NewReader tar_NewReader iReader
   in fst r = None <-> snd r <> None) /\
  (let r := TarBzip2Reader Reader TarReader bzip2_NewReader tar_NewReader
              iReader
   in fst r = None <-> snd r <> None) /\
  (let r := TarUncompressedReader Reader TarReader tar_NewReader iReader
   in fst r = None <-> snd r <> None).
Proof.
  unfold TarGzipReader, TarBzip2Reader, TarUncompressedReader. simpl.
  destruct (gzip_NewReader iReader) as [g [e|]]; simpl;
    repeat split; try discriminate; intros H; try contradiction H;
    try discriminate H; reflexivity.
Qed.

End ReaderExtras.

(** ** The docker scanner *)

Module DockerExtras.
Import Reporter ReporterClaims Docker DockerClaims DockerScanner.

Lemma deferred_rep env d w : rep (deferred env d w) = rep w.
Proof.
  unfold deferred. destruct (close_err env), (remove_all_err env); reflexivity.
Qed.

Lemma deferred_cwd env d w : cwd (deferred env d w) = cwd w.
Proof.
  unfold deferred. destruct (close_err env), (remove_all_err env); reflexivity.
Qed.

Lemma deferred_tmpDirs env d w :
  tmpDirs (deferred env d w) =
  match remove_all_err env with
  | None => remove_dir d (tmpDirs w)
  | Some _ => tmpDirs w
  end.
Proof.
  unfold deferred. destruct (close_err env), (remove_all_err env); reflexivity.
Qed.

(** When a step before [crawler.Crawl] fails, [scanImage] returns an error
    with empty statistics, and neither the reporter nor the working
    directory has changed. *)
Theorem scanImage_fails_before_crawl env image w :
  crawl_runs env = false ->
  let '(w', (stats, err)) := scanImage env image w in
  stats = EmptyStats /\ err <> None /\ rep w' = rep w /\ cwd w' = cwd w.
Proof.
  unfold crawl_runs, scanImage, scanImage_body. intros Hc.
  destruct (parse_reference_err env), (daemon_image_err env),
    (mkdir_temp env), (create_err env), (export_err env),
    (unarchive_err env), (remove_err env), (chdir_err env);
    try discriminate Hc; repeat split; try discriminate;
    first [rewrite deferred_rep; reflexivity
          | rewrite deferred_cwd; reflexivity].
Qed.

(** When every step before the crawl succeeds, [scanImage] returns the
    crawl's statistics and error, the reporter has collected the crawl's
    results, and the process is left in the temporary directory, which the
    deferred cleanup deletes when [os.RemoveAll] succeeds. *)
Theorem scanImage_crawl_result env image w d :
  crawl_runs env = true -> mkdir_temp env = inl d ->
  let '(w', (stats, err)) := scanImage env image w in
  stats = crawl_stats (crawl env) /\ err = crawl_err (crawl env) /\
  rep w' = CollectAll (rep w) (crawl_results (crawl env)) /\
  cwd w' = d /\
  (remove_all_err env = None -> ~ In d (tmpDirs w')).
Proof.
  unfold crawl_runs, scanImage.
  destruct (parse_reference_err env), (daemon_image_err env),
    (mkdir_temp env) as [d'|], (create_err env); try discriminate.
  unfold scanImage_body.
  destruct (export_err env), (unarchive_err env), (remove_err env),
    (chdir_err env); try discriminate.
  intros _ Hd. inversion Hd; subst d'.
  repeat split.
  - rewrite deferred_rep. reflexivity.
  - rewrite deferred_cwd. reflexivity.
  - intros Hr. rewrite deferred_tmpDirs, Hr. unfold remove_dir.
    rewrite filter_In, String.eqb_refl. simpl. intros [_ Hf]; discriminate.
Qed.

(** A temporary directory outlives [scanImage] only when [os.Create] or
    [os.RemoveAll] failed: every directory left afterwards was there before,
    or is the one [os.MkdirTemp] made in a run where one of them failed. *)
Theorem scanImage_leftover_tmpdir env image w d :
  In d (tmpDirs (fst (scanImage env image w))) ->
  In d (tmpDirs w) \/
  (mkdir_temp env = inl d /\ (create_err env <> None \/ remove_all_err env <> None)).
Proof.
  unfold scanImage.
  destruct (parse_reference_err env); [simpl; auto|].
  destruct (daemon_image_err env); [simpl; auto|].
  destruct (mkdir_temp env) as [d'|]; [|simpl; auto].
  destruct (create_err env) as [e|].
  - simpl. intros H. apply in_app_or in H as [H|[<-|[]]]; [auto|].
    right. split; [reflexivity|left; discriminate].
  - assert (Hb : tmpDirs (fst (scanImage_body env d'
                   (set_tmpDirs w (tmpDirs w ++ [d'])))) = tmpDirs w ++ [d']).
    { unfold scanImage_body.
      destruct (export_err env), (unarchive_err env), (remove_err env),
        (chdir_err env); reflexivity. }
    destruct (scanImage_body env d' _) as [w1 r]. simpl in *.
    rewrite deferred_tmpDirs, Hb.
    destruct (remove_all_err env) as [e|].
    + intros H. apply in_app_or in H as [H|[<-|[]]]; [auto|].
      right. split; [reflexivity|right; discriminate].
    + unfold remove_dir. rewrite filter_In. intros [H Hne].
      apply in_app_or in H as [H|[Heq|[]]]; [auto|].
      subst d. rewrite String.eqb_refl in Hne. discriminate Hne.
Qed.

(** When closing [image.tar] fails but the directory is removed, the
    deferred cleanup still writes "failed to remove temporary image
    directory" to the error writer: the message of the [Close] branch is the
    one of the [RemoveAll] branch. *)
Theorem deferred_close_failure_message env d w :
  close_err env <> None -> remove_all_err env = None ->
  errOut (deferred env d w)
    = errOut w ++ [("failed to remove temporary image directory " ++ d)%string] /\
  ~ In d (tmpDirs (deferred env d w)).
Proof.
  intros Hc Hr. unfold deferred. rewrite Hr.
  destruct (close_err env) as [e|]; [|contradiction Hc; reflexivity].
  split; [reflexivity|]. simpl. unfold remove_dir.
  rewrite filter_In, String.eqb_refl. simpl. intros [_ Hf]; discriminate.
Qed.

Lemma rep_scanImage env image w :
  rep (fst (scanImage env image w)) =
  if crawl_runs env then CollectAll (rep w) (crawl_results (crawl env))
  else rep w.
Proof.
  unfold crawl_runs, scanImage, scanImage_body.
  destruct (parse_reference_err env), (daemon_image_err env),
    (mkdir_temp env), (create_err env), (export_err env),
    (unarchive_err env), (remove_err env), (chdir_err env);
    simpl; try rewrite deferred_rep; reflexivity.
Qed.

Lemma CollectAll_DisableCVE45105 r results :
  DisableCVE45105 (CollectAll r results) = DisableCVE45105 r.
Proof.
  unfold CollectAll. revert r.
  induction results as [|[[p f] v] results IH]; intros r;
    cbn [fold_left]; [reflexivity|].
  rewrite IH. apply Collect_DisableCVE45105.
Qed.

Lemma scan_trace_count envs images w :
  Count (rep (fst (scan_trace envs images w)))
    = Count (rep w) + crawled_count (DisableCVE45105 (rep w)) envs images /\
  DisableCVE45105 (rep (fst (scan_trace envs images w)))
    = DisableCVE45105 (rep w).
Proof.
  revert w. induction images as [|image rest IH]; intros w; cbn [scan_trace].
  - cbn [crawled_count fst]. split; [lia|reflexivity].
  - change (crawled_count (DisableCVE45105 (rep w)) envs (image :: rest))
      with (match RepoTags image with
            | [] => crawled_count (DisableCVE45105 (rep w)) envs rest
            | _ =>
              (if crawl_runs (envs image)
               then List.length (filter (counted (DisableCVE45105 (rep w)))
                                        (crawl_results (crawl (envs image))))
               else 0) + crawled_count (DisableCVE45105 (rep w)) envs rest
            end).
    destruct (RepoTags image) as [|t ts]; [apply IH|].
    set (w1 := set_rep w _).
    pose proof (rep_scanImage (envs image) image w1) as Hr.
    destruct (scanImage (envs image) image w1) as [w2 [st err]].
    simpl in Hr.
    set (w3 := match err with Some e => write_err w2 e | None => w2 end).
    assert (H3 : rep w3 = rep w2) by (subst w3; destruct err; reflexivity).
    destruct (IH w3) as [IHc IHd].
    destruct (scan_trace envs rest w3) as [wf tr]. cbn [fst snd] in *.
    assert (Hc1 : Count (SetImageTags (SetImageID (rep w) (ID image)) (t :: ts))
                  = Count (rep w)) by reflexivity.
    assert (Hd1 : DisableCVE45105
                    (SetImageTags (SetImageID (rep w) (ID image)) (t :: ts))
                  = DisableCVE45105 (rep w)) by reflexivity.
    rewrite IHc, IHd, H3, Hr.
    destruct (crawl_runs (envs image)).
    + rewrite CollectAll_count, CollectAll_DisableCVE45105, Hc1, Hd1.
      split; [lia|reflexivity].
    + rewrite Hc1, Hd1. split; [lia|reflexivity].
Qed.

(** When [ScanImages] returns no error, its count is the reporter's count
    before the scan plus the results the reporter counts from every tagged
    image whose crawl ran, the crawl's own success or failure aside. *)
Theorem ScanImages_count config images envs summary_err w0 :
  snd (snd (ScanImages config (inl images) envs summary_err w0)) = None ->
  fst (snd (ScanImages config (inl images) envs summary_err w0))
    = Count (rep w0)
      + crawled_count (DisableCVE45105 (rep w0)) envs images.
Proof.
  destruct (scan_trace_count envs images w0) as [Hc _].
  unfold ScanImages. rewrite scan_loop_trace.
  destruct (scan_trace envs images w0) as [wf tr]. simpl in *.
  destruct (OutputSummary config); [destruct summary_err|];
    simpl; intros H; [discriminate H| |]; exact Hc.
Qed.

Lemma scan_loop_untagged envs image l1 l2 w stats :
  RepoTags image = [] ->
  scan_loop envs (l1 ++ image :: l2) w stats
  = scan_loop envs (l1 ++ l2) w stats.
Proof.
  intros Ht. revert w stats.
  induction l1 as [|i l1 IH]; intros w stats; simpl.
  - rewrite Ht. reflexivity.
  - destruct (RepoTags i); [apply IH|].
    destruct (scanImage (envs i) i _) as [w2 [st [e|]]]; apply IH.
Qed.

(** An image without repo tags is skipped: removing it from the image list
    changes nothing in what [ScanImages] does. *)
Theorem ScanImages_untagged_skipped config envs summary_err w image l1 l2 :
  RepoTags image = [] ->
  ScanImages config (inl (l1 ++ image :: l2)) envs summary_err w
  = ScanImages config (inl (l1 ++ l2)) envs summary_err w.
Proof.
  intros Ht. unfold ScanImages. rewrite (scan_loop_untagged _ _ _ _ _ _ Ht).
  reflexivity.
Qed.

(** [NewDockerScanner] fails exactly when the docker client cannot be
    created, with that error wrapped. The scanner it builds carries the
    configuration's CVE-2021-45105 switch in a fresh reporter, so a scan of
    all images with it, when no error is returned, counts exactly the
    results counted under that switch in the crawls that ran. *)
Theorem NewDockerScanner_scan_count (Writer Client : Type) (c : Scan.Config)
    (stdout stderr : Writer) :
  (forall err : error,
     NewDockerScanner Writer Client (inr err) c stdout stderr
     = (None, Some ("failed to create docker client: " ++ err)%string)) /\
  (forall cl : Client, exists s,
     NewDockerScanner Writer Client (inl cl) c stdout stderr = (Some s, None) /\
     DisableCVE45105 (reporter Writer Client s) = Scan.DisableCVE45105 c /\
     forall images envs summary_err w,
       rep w = reporter Writer Client s ->
       snd (snd (ScanImages (scan_config (config Writer Client s))
                   (inl images) envs summary_err w)) = None ->
       fst (snd (ScanImages (scan_config (config Writer Client s))
                   (inl images) envs summary_err w))
       = crawled_count (Scan.DisableCVE45105 c) envs images).
Proof.
  split; [reflexivity|]. intros cl.
  eexists. split; [reflexivity|]. split; [reflexivity|].
  intros images envs summary_err w Hw Herr.
  destruct (scan_trace_count envs images w) as [Hc _].
  revert Herr. unfold ScanImages. rewrite scan_loop_trace.
  destruct (scan_trace envs images w) as [wf tr]. simpl in *.
  rewrite Hw in Hc. simpl in Hc.
  destruct (Scan.OutputSummary c); [destruct summary_err|];
    simpl; intros H; [discriminate H| |]; exact Hc.
Qed.

End DockerExtras.

(** ** Instances of the further properties with hypotheses *)

Module ExtraWitnesses.
Import GoStrings Archive DetectorExtras Reporter Docker DockerScanner
  DockerExtras.

Lemma ParseArchiveFormatFromFile_prefix_witness :
  ContainsByte "x.tar.gz" "." = true /\
  ParseArchiveFormatFromFile "dir.app.x.tar.gz"
  = ParseArchiveFormatFromFile "x.tar.gz".
Proof.
  split; [reflexivity|].
  exact (ParseArchiveFormatFromFile_prefix "dir.app" "x.tar.gz" eq_refl).
Defined.

Lemma ParseArchiveFormatFromFile_sound_witness :
  ParseArchiveFormatFromFile "app.war" = (ZipArchive, true) /\
  exists k, lookup extensions k = Some ZipArchive /\
    ("app.war" = k \/ exists p, "app.war" = (p ++ String "." k)%string).
Proof.
  split; [reflexivity|].
  apply ParseArchiveFormatFromFile_sound. reflexivity.
Defined.

Lemma scanImage_fails_before_crawl_witness :
  crawl_runs Scenarios.env_create_fails = false /\
  let '(w', (stats, err)) :=
    scanImage Scenarios.env_create_fails Scenarios.image1 Scenarios.world0 in
  stats = EmptyStats /\ err <> None /\ rep w' = rep Scenarios.world0 /\
  cwd w' = cwd Scenarios.world0.
Proof.
  split; [reflexivity|].
  apply scanImage_fails_before_crawl. reflexivity.
Defined.

Lemma scanImage_crawl_result_witness :
  crawl_runs Scenarios.env1 = true /\
  mkdir_temp Scenarios.env1 = inl Scenarios.tmp1 /\
  let '(w', (stats, err)) :=
    scanImage Scenarios.env1 Scenarios.image1 Scenarios.world0 in
  stats = crawl_stats (crawl Scenarios.env1) /\
  err = crawl_err (crawl Scenarios.env1) /\
  rep w' = CollectAll (rep Scenarios.world0)
                      (crawl_results (crawl Scenarios.env1)) /\
  cwd w' = Scenarios.tmp1 /\
  (remove_all_err Scenarios.env1 = None -> ~ In Scenarios.tmp1 (tmpDirs w')).
Proof.
  split; [reflexivity|split; [reflexivity|]].
  apply scanImage_crawl_result; reflexivity.
Defined.

Lemma scanImage_leftover_tmpdir_witness :
  In Scenarios.tmp1
     (tmpDirs (fst (scanImage Scenarios.env_create_fails Scenarios.image1
                              Scenarios.world0))) /\
  (In Scenarios.tmp1 (tmpDirs Scenarios.world0) \/
   (mkdir_temp Scenarios.env_create_fails = inl Scenarios.tmp1 /\
    (create_err Scenarios.env_create_fails <> None \/
     remove_all_err Scenarios.env_create_fails <> None))).
Proof.
  assert (H : In Scenarios.tmp1
     (tmpDirs (fst (scanImage Scenarios.env_create_fails Scenarios.image1
                              Scenarios.world0)))) by (vm_compute; left; reflexivity).
  split; [exact H|].
  exact (scanImage_leftover_tmpdir _ _ _ _ H).
Defined.

Lemma deferred_close_failure_message_witness :
  close_err Scenarios.env_close_fails <> None /\
  remove_all_err Scenarios.env_close_fails = None /\
  errOut (deferred Scenarios.env_close_fails Scenarios.tmp1 Scenarios.world0)
    = errOut Scenarios.world0
      ++ [("failed to remove temporary image directory " ++ Scenarios.tmp1)%string] /\
  ~ In Scenarios.tmp1
      (tmpDirs (deferred Scenarios.env_close_fails Scenarios.tmp1
                         Scenarios.world0)).
Proof.
  split; [discriminate|split; [reflexivity|]].
  apply deferred_close_failure_message; [discriminate|reflexivity].
Defined.

Lemma ScanImages_count_witness :
  snd (snd (ScanImages Scenarios.config_summary
              (inl [Scenarios.image1; Scenarios.image2])
              Scenarios.envs None Scenarios.world0)) = None /\
  fst (snd (ScanImages Scenarios.config_summary
              (inl [Scenarios.image1; Scenarios.image2])
              Scenarios.envs None Scenarios.world0))
  = Count (rep Scenarios.world0)
    + crawled_count (DisableCVE45105 (rep Scenarios.world0)) Scenarios.envs
        [Scenarios.image1; Scenarios.image2].
Proof.
  assert (H : snd (snd (ScanImages Scenarios.config_summary
              (inl [Scenarios.image1; Scenarios.image2])
              Scenarios.envs None Scenarios.world0)) = None)
    by (vm_compute; reflexivity).
  split; [exact H|].
  exact (ScanImages_count _ _ _ _ _ H).
Defined.

Lemma ScanImages_untagged_skipped_witness :
  RepoTags Scenarios.image_untagged = [] /\
  ScanImages Scenarios.config_summary
    (inl ([Scenarios.image1] ++ Scenarios.image_untagged :: [Scenarios.image2]))
    Scenarios.envs None Scenarios.world0
  = ScanImages Scenarios.config_summary
      (inl ([Scenarios.image1] ++ [Scenarios.image2]))
      Scenarios.envs None Scenarios.world0.
Proof.
  split; [reflexivity|].
  apply ScanImages_untagged_skipped. reflexivity.
Defined.

End ExtraWitnesses.
